(** * Portfolio optimisation (portfolio/optimization.py)

    A shallow embedding of [sharpe_maximizer], [find_optimal_allocations]
    and [optimize_portfolio].

    Numbers.  NumPy's float64 values are idealised as exact rationals with
    one extra value standing for every non-finite result (nan, +inf, -inf);
    a division by zero yields that value, as NumPy's true division does,
    instead of raising.

    Collaborators.  [pandas.date_range], [util.get_data],
    [analysis.get_portfolio_value], [analysis.get_portfolio_stats] and
    [scipy.optimize.minimize] are not part of the file: they are the fields
    of a record of externals over which everything below is parametrised.

    Effects.  A computation yields the list of its external interactions
    (console lines, the solver invocation, the plot) together with a
    returned value or a raised exception. *)

From Stdlib Require Import List String ZArith QArith Qabs Bool Lia.
Import ListNotations.
Open Scope string_scope.
Open Scope list_scope.
Open Scope Q_scope.

(** ** float64, idealised *)

Inductive npfloat : Type :=
| Fin (q : Q)
| NonFinite.

Definition is_finite (a : npfloat) : bool :=
  match a with Fin _ => true | NonFinite => false end.

(** Equality up to the representation of the rational. *)
Definition feq (a b : npfloat) : Prop :=
  match a, b with
  | Fin p, Fin q => p == q
  | NonFinite, NonFinite => True
  | _, _ => False
  end.

Definition fadd (a b : npfloat) : npfloat :=
  match a, b with
  | Fin p, Fin q => Fin (p + q)
  | _, _ => NonFinite
  end.

Definition fsub (a b : npfloat) : npfloat :=
  match a, b with
  | Fin p, Fin q => Fin (p - q)
  | _, _ => NonFinite
  end.

Definition fmul (a b : npfloat) : npfloat :=
  match a, b with
  | Fin p, Fin q => Fin (p * q)
  | _, _ => NonFinite
  end.

Definition fopp (a : npfloat) : npfloat :=
  match a with
  | Fin p => Fin (- p)
  | NonFinite => NonFinite
  end.

(** [x / 0] is nan or an infinity, never an exception. *)
Definition fdiv (a b : npfloat) : npfloat :=
  match a, b with
  | Fin p, Fin q => if Qeq_bool q 0 then NonFinite else Fin (p / q)
  | _, _ => NonFinite
  end.

Definition of_int (n : Z) : npfloat := Fin (inject_Z n).

(** ** Arrays *)

Definition ndarray := list npfloat.

(** [np.ones(n, dtype=np.float64)] *)
Definition np_ones (n : nat) : ndarray := repeat (Fin 1) n.

(** [np.sum(x)] *)
Definition np_sum (x : ndarray) : npfloat := fold_right fadd (Fin 0) x.

(** [x * c], [x / c]: broadcasting a scalar over an array. *)
Definition array_mul (x : ndarray) (c : npfloat) : ndarray :=
  map (fun w => fmul w c) x.

Definition array_div (x : ndarray) (c : npfloat) : ndarray :=
  map (fun w => fdiv w c) x.

(** ** Frames and series *)

Definition Series := list npfloat.

Record DataFrame : Type := mkFrame {
  df_index : list string;
  df_columns : list (string * Series)
}.

Definition labels (df : DataFrame) : list string := map fst (df_columns df).

(** [df.shape[1]] *)
Definition shape1 (df : DataFrame) : nat := List.length (df_columns df).

(** ** Exceptions and outcomes *)

(** A Python exception, identified by the name of its class. *)
Inductive exn : Type := Exn (cls : string).

Inductive outcome (A : Type) : Type :=
| Returned (a : A)
| Raised (e : exn).
Arguments Returned {A} a.
Arguments Raised {A} e.

(** ** Column selection *)

Definition has_label (k : string) (c : string * Series) : bool :=
  String.eqb (fst c) k.

(** [df[keys]] with a list of labels: for each key, in the order asked, the
    columns carrying that label; [KeyError] when a key labels no column. *)
Fixpoint select_columns (cols : list (string * Series)) (keys : list string)
  : outcome (list (string * Series)) :=
  match keys with
  | [] => Returned []
  | k :: ks =>
      match filter (has_label k) cols with
      | [] => Raised (Exn "KeyError")
      | m =>
          match select_columns cols ks with
          | Returned r => Returned (m ++ r)
          | Raised e => Raised e
          end
      end
  end.

Definition getitem_list (df : DataFrame) (keys : list string)
  : outcome DataFrame :=
  match select_columns (df_columns df) keys with
  | Returned cols => Returned (mkFrame (df_index df) cols)
  | Raised e => Raised e
  end.

(** [df[key]] with one label: that column as a series (the first one so
    labelled), [KeyError] when there is none. *)
Definition getitem (df : DataFrame) (key : string) : outcome Series :=
  match find (has_label key) (df_columns df) with
  | Some c => Returned (snd c)
  | None => Raised (Exn "KeyError")
  end.

(** [pd.concat(series, keys=keys, axis=1)] *)
Definition pd_concat (idx : list string) (series : list Series)
  (keys : list string) : DataFrame :=
  mkFrame idx (combine keys series).

(** ** The solver's interface *)

(** What [spo.minimize] hands back; [min_result.x] is [res_x]. *)
Record OptimizeResult : Type := mkResult {
  res_x : ndarray;
  res_fun : npfloat;
  res_success : bool;
  res_status : Z;
  res_message : string;
  res_nit : nat
}.

Record Constraint : Type := mkConstraint {
  ctype : string;
  cfun : ndarray -> npfloat
}.

(** The arguments of one call of [spo.minimize]. *)
Record MinimizeCall : Type := mkCall {
  call_fun : ndarray -> DataFrame -> npfloat;
  call_x0 : ndarray;
  call_args : DataFrame;
  call_method : string;
  call_options : list (string * bool);
  call_bounds : list (Z * Z);
  call_constraints : Constraint
}.

(** ** Interactions *)

(** A value as it appears in a [print] statement. *)
Inductive pyval : Type :=
| VStr (s : string)
| VList (l : list string)
| VFloat (a : npfloat)
| VArray (a : ndarray)
| VResult (r : OptimizeResult).

Inductive event : Type :=
| Stdout (items : list pyval)
| CallMinimize (c : MinimizeCall)
| PlotData (df : DataFrame) (title : string).

Definition is_console (e : event) : bool :=
  match e with
  | Stdout _ => true
  | PlotData _ _ => true
  | CallMinimize _ => false
  end.

(** The console lines and plots of a trace. *)
Definition console (t : list event) : list event := filter is_console t.

(** The solver invocations of a trace. *)
Fixpoint minimize_calls (t : list event) : list MinimizeCall :=
  match t with
  | [] => []
  | CallMinimize c :: t' => c :: minimize_calls t'
  | _ :: t' => minimize_calls t'
  end.

(** The items printed after [label] by the first line that starts with it. *)
Fixpoint printed (label : string) (t : list event) : option (list pyval) :=
  match t with
  | [] => None
  | Stdout (VStr s :: items) :: t' =>
      if String.eqb s label then Some items else printed label t'
  | _ :: t' => printed label t'
  end.

(** ** Computations: a trace and an outcome *)

Definition io (A : Type) : Type := (list event * outcome A)%type.

Definition trace {A} (m : io A) : list event := fst m.
Definition result {A} (m : io A) : outcome A := snd m.

Definition ret {A} (a : A) : io A := ([], Returned a).

Definition bind {A B} (m : io A) (k : A -> io B) : io B :=
  match m with
  | (t, Returned a) => let (t', o) := k a in (t ++ t', o)
  | (t, Raised e) => (t, Raised e)
  end.

Definition lift {A} (o : outcome A) : io A := ([], o).

Definition print (items : list pyval) : io unit :=
  ([Stdout items], Returned tt).

Notation "v <- c ;; k" := (bind c (fun v => k))
  (at level 61, c at next level, right associativity).
Notation "c ;;; k" := (bind c (fun _ => k))
  (at level 61, right associativity).

(** ** Externals *)

Definition stats : Type := (npfloat * npfloat * npfloat * npfloat)%type.

Record externals : Type := mkExternals {
  (** [pd.date_range(start, end)] *)
  date_range : string -> string -> list string;
  (** [util.get_data(symbols, dates)], which adds SPY by itself *)
  get_data : list string -> list string -> outcome DataFrame;
  (** [analysis.get_portfolio_value(prices, allocs)] *)
  get_portfolio_value : DataFrame -> ndarray -> Series;
  (** [analysis.get_portfolio_stats(port_val)]:
      cumulative return, average daily return, volatility, Sharpe ratio *)
  get_portfolio_stats : Series -> stats;
  (** [scipy.optimize.minimize] *)
  minimize : MinimizeCall -> outcome OptimizeResult;
  (** [series.ix[0, :]] *)
  series_ix0 : Series -> outcome npfloat;
}.

Definition call_minimize (E : externals) (c : MinimizeCall)
  : io OptimizeResult :=
  ([CallMinimize c], minimize E c).

Definition plot_data (df : DataFrame) (title : string) : io unit :=
  ([PlotData df title], Returned tt).

(** ** The program *)

Section Program.

Variable E : externals.

Definition sharpe_maximizer (allocs : ndarray) (prices : DataFrame)
  : npfloat :=
  let port_val := get_portfolio_value E prices allocs in
  let '(cum_ret, avg_daily_ret, std_daily_ret, sharpe_ratio) :=
    get_portfolio_stats E port_val in
  fopp sharpe_ratio.

(** Python's [l * n] on a list. *)
Definition list_times {A} (l : list A) (n : nat) : list A :=
  List.concat (repeat l n).

Definition init_guess (prices : DataFrame) : ndarray :=
  array_div (array_mul (np_ones (shape1 prices)) (Fin 1))
            (of_int (Z.of_nat (shape1 prices))).

Definition alloc_bounds (prices : DataFrame) : list (Z * Z) :=
  list_times [(0%Z, Z.of_nat (shape1 prices))] 4.

Definition alloc_constraint : Constraint :=
  {| ctype := "eq"; cfun := fun a => fsub (np_sum a) (Fin 1) |}.

(** The call of line 47. *)
Definition minimize_call (prices : DataFrame) : MinimizeCall :=
  {| call_fun := sharpe_maximizer;
     call_x0 := init_guess prices;
     call_args := prices;
     call_method := "SLSQP";
     call_options := [("disp:", true)];
     call_bounds := alloc_bounds prices;
     call_constraints := alloc_constraint |}.

Definition find_optimal_allocations (prices : DataFrame) : io ndarray :=
  min_result <- call_minimize E (minimize_call prices) ;;
  print [VResult min_result] ;;;
  ret (res_x min_result).

(** [allocs / np.sum(allocs)] *)
Definition normalize (allocs : ndarray) : ndarray :=
  array_div allocs (np_sum allocs).

Definition optimize_portfolio (start_date end_date : string)
  (symbols : list string) : io unit :=
  let dates := date_range E start_date end_date in
  prices_all <- lift (get_data E symbols dates) ;;
  prices <- lift (getitem_list prices_all symbols) ;;
  prices_SPY <- lift (getitem prices_all "SPY") ;;
  allocs <- find_optimal_allocations prices ;;
  let allocs := normalize allocs in
  let port_val := get_portfolio_value E prices allocs in
  let '(cum_ret, avg_daily_ret, std_daily_ret, sharpe_ratio) :=
    get_portfolio_stats E port_val in
  print [VStr "Start Date:"; VStr start_date] ;;;
  print [VStr "End Date:"; VStr end_date] ;;;
  print [VStr "Symbols:"; VList symbols] ;;;
  print [VStr "Optimal allocations:"; VArray allocs] ;;;
  print [VStr "Sharpe Ratio:"; VFloat sharpe_ratio] ;;;
  print [VStr "Volatility (stdev of daily returns):"; VFloat std_daily_ret] ;;;
  print [VStr "Average Daily Return:"; VFloat avg_daily_ret] ;;;
  print [VStr "Cumulative Return:"; VFloat cum_ret] ;;;
  first_SPY <- lift (series_ix0 E prices_SPY) ;;
  let normed_SPY := array_div prices_SPY first_SPY in
  let df_temp :=
    pd_concat (df_index prices_all) [port_val; normed_SPY]
              ["Portfolio"; "SPY"] in
  plot_data df_temp "Daily Portfolio Value and SPY".

Definition test_run : io unit :=
  let start_date := "2010-01-01" in
  let end_date := "2010-12-31" in
  let symbols := ["GOOGL"; "AAPL"; "GLD"; "XOM"] in
  optimize_portfolio start_date end_date symbols.

End Program.

(** ** Reading the statistics tuple *)

Definition cum_ret_of (st : stats) : npfloat := fst (fst (fst st)).
Definition avg_daily_ret_of (st : stats) : npfloat := snd (fst (fst st)).
Definition std_daily_ret_of (st : stats) : npfloat := snd (fst st).
Definition sharpe_ratio_of (st : stats) : npfloat := snd st.

(** ** What the specification asks of the search, as predicates *)

(** A solver that refuses a bounds list whose length is not that of the
    initial guess, the way SciPy's SLSQP driver does before it iterates. *)
Definition rejects_incompatible_bounds (E : externals) : Prop :=
  forall c : MinimizeCall,
    List.length (call_bounds c) <> List.length (call_x0 c) ->
    minimize E c = Raised (Exn "IndexError").

(** "Non-convergence reported by the solver makes the operation fail with
    OptimizationDidNotConverge." *)
Definition fails_when_not_converged (E : externals) (prices : DataFrame)
  : Prop :=
  forall r : OptimizeResult,
    minimize E (minimize_call E prices) = Returned r ->
    res_success r = false ->
    result (find_optimal_allocations E prices)
    = Raised (Exn "OptimizationDidNotConverge").

(** "Zero instruments make the operation fail with EmptyPortfolio." *)
Definition fails_when_empty (E : externals) (prices : DataFrame) : Prop :=
  shape1 prices = 0%nat ->
  result (find_optimal_allocations E prices) = Raised (Exn "EmptyPortfolio").

(** "The optimizer writes nothing to the console." *)
Definition silent (E : externals) (prices : DataFrame) : Prop :=
  console (trace (find_optimal_allocations E prices)) = [].

(** ** The shape of a complete run *)

(** The sum of a list of rationals. *)
Definition qsum (qs : list Q) : Q := fold_right Qplus 0 qs.

(** The eight lines of the report. *)
Definition report_lines (start_date end_date : string) (symbols : list string)
  (allocs : ndarray) (st : stats) : list event :=
  [Stdout [VStr "Start Date:"; VStr start_date];
   Stdout [VStr "End Date:"; VStr end_date];
   Stdout [VStr "Symbols:"; VList symbols];
   Stdout [VStr "Optimal allocations:"; VArray allocs];
   Stdout [VStr "Sharpe Ratio:"; VFloat (sharpe_ratio_of st)];
   Stdout [VStr "Volatility (stdev of daily returns):";
           VFloat (std_daily_ret_of st)];
   Stdout [VStr "Average Daily Return:"; VFloat (avg_daily_ret_of st)];
   Stdout [VStr "Cumulative Return:"; VFloat (cum_ret_of st)]].

(** The comparison plot, drawn when SPY's first value can be read. *)
Definition plot_events (E : externals) (prices_all : DataFrame)
  (prices_SPY port_val : Series) : list event :=
  match series_ix0 E prices_SPY with
  | Returned first_SPY =>
      [PlotData
         (pd_concat (df_index prices_all)
                    [port_val; array_div prices_SPY first_SPY]
                    ["Portfolio"; "SPY"])
         "Daily Portfolio Value and SPY"]
  | Raised _ => []
  end.

(** ** Comparing arrays and weights *)

(** Entry by entry the same numbers. *)
Definition array_feq (a b : ndarray) : Prop := Forall2 feq a b.

(** The weight [w] respects the bound pair [b] = (lower, upper). *)
Definition within_bounds (w : npfloat) (b : Z * Z) : Prop :=
  match w with
  | Fin q => inject_Z (fst b) <= q /\ q <= inject_Z (snd b)
  | NonFinite => False
  end.

(** Order on finite values; nothing compares with a non-finite one. *)
Definition fle (a b : npfloat) : Prop :=
  match a, b with
  | Fin p, Fin q => p <= q
  | _, _ => False
  end.



(** ** Sample data *)

Module Sample.

Definition days : list string :=
  ["2010-01-04"; "2010-01-05"; "2010-01-06"; "2010-01-07"].

Definition spy : Series := [Fin 100; Fin 101; Fin 102; Fin 103].
Definition googl : Series := [Fin 1; Fin (51 # 50); Fin (101 # 100); Fin (21 # 20)].
Definition aapl : Series := [Fin 1; Fin (99 # 100); Fin 1; Fin (49 # 50)].
Definition gld : Series := [Fin 10; Fin 11; Fin 10; Fin 12].
Definition xom : Series := [Fin 50; Fin 50; Fin 49; Fin 51].

Definition symbols : list string := ["GOOGL"; "AAPL"; "GLD"; "XOM"].

(** What the loader returns for these symbols: SPY comes first. *)
Definition loaded : DataFrame :=
  mkFrame days
    [("SPY", spy); ("GOOGL", googl); ("AAPL", aapl); ("GLD", gld);
     ("XOM", xom)].

Definition four : DataFrame :=
  mkFrame days [("GOOGL", googl); ("AAPL", aapl); ("GLD", gld); ("XOM", xom)].

Definition three : DataFrame :=
  mkFrame days [("GOOGL", googl); ("AAPL", aapl); ("GLD", gld)].

Definition one : DataFrame := mkFrame days [("GLD", gld)].

Definition none : DataFrame := mkFrame days [].

(** An instrument's prices divided by its first price. *)
Definition normed (col : Series) : Series :=
  match col with
  | [] => []
  | p0 :: _ => array_div col p0
  end.

Fixpoint add_series (a b : Series) : Series :=
  match a, b with
  | u :: a', v :: b' => fadd u v :: add_series a' b'
  | _, _ => []
  end.

Fixpoint weighted_sum (n : nat) (cols : list (string * Series))
  (allocs : ndarray) : Series :=
  match cols, allocs with
  | c :: cols', w :: allocs' =>
      add_series (array_mul (normed (snd c)) w) (weighted_sum n cols' allocs')
  | _, _ => repeat (Fin 0) n
  end.

(** Modelled from the spec: [analysis.get_portfolio_value] is not in the
    source tree; section 4.1 has each instrument's prices divided by its
    first price, scaled by its weight (start value 1.0) and summed per
    date.  It serves as the evaluator of the sample runs only. *)
Definition portfolio_value (prices : DataFrame) (allocs : ndarray) : Series :=
  weighted_sum (List.length (df_index prices)) (df_columns prices) allocs.

Fixpoint daily_returns (v : Series) : Series :=
  match v with
  | a :: (b :: _) as v' => fsub (fdiv b a) (Fin 1) :: daily_returns v'
  | _ => []
  end.

Definition mean (s : Series) : npfloat :=
  fdiv (np_sum s) (of_int (Z.of_nat (List.length s))).

(** A stand-in for [analysis.get_portfolio_stats] in the sample runs: the
    cumulative return and the mean daily return of section 4.1, and nothing
    finite for the two entries that need a square root. *)
Definition summary (port_val : Series) : stats :=
  match port_val with
  | [] => (NonFinite, NonFinite, NonFinite, NonFinite)
  | v0 :: _ =>
      (fsub (fdiv (last port_val v0) v0) (Fin 1),
       mean (daily_returns port_val), NonFinite, NonFinite)
  end.

Definition first_value (s : Series) : outcome npfloat :=
  match s with
  | [] => Raised (Exn "IndexError")
  | v :: _ => Returned v
  end.

(** A solver that checks the bounds as SLSQP does and then reports [r]. *)
Definition checked_solver (r : OptimizeResult) (c : MinimizeCall)
  : outcome OptimizeResult :=
  if Nat.eqb (List.length (call_bounds c)) (List.length (call_x0 c))
  then Returned r
  else Raised (Exn "IndexError").

(** A solver that reports [r] without looking at the bounds. *)
Definition lenient_solver (r : OptimizeResult) (c : MinimizeCall)
  : outcome OptimizeResult := Returned r.

(** An iterate that does not sum to one, reported as not converged. *)
Definition stalled : OptimizeResult :=
  {| res_x := [Fin (3 # 2); Fin (1 # 2); Fin 0; Fin 0];
     res_fun := Fin (- (1 # 4));
     res_success := false;
     res_status := 9%Z;
     res_message := "Iteration limit exceeded";
     res_nit := 100%nat |}.

Definition world (solver : MinimizeCall -> outcome OptimizeResult)
  : externals :=
  {| date_range := fun _ _ => days;
     get_data := fun _ _ => Returned loaded;
     get_portfolio_value := portfolio_value;
     get_portfolio_stats := summary;
     minimize := solver;
     series_ix0 := first_value |}.

Definition lenient : externals := world (lenient_solver stalled).
Definition checked : externals := world (checked_solver stalled).

(** An iterate that meets the constraint, reported as converged. *)
Definition converged : OptimizeResult :=
  {| res_x := [Fin (1 # 2); Fin (1 # 4); Fin (1 # 4); Fin 0];
     res_fun := Fin (- (3 # 2));
     res_success := true;
     res_status := 0%Z;
     res_message := "Optimization terminated successfully.";
     res_nit := 7%nat |}.

(** An iterate whose weights cancel out. *)
Definition cancelled : OptimizeResult :=
  {| res_x := [Fin 0; Fin 0; Fin 0; Fin 0];
     res_fun := NonFinite;
     res_success := false;
     res_status := 8%Z;
     res_message := "Positive directional derivative for linesearch";
     res_nit := 3%nat |}.

(** The loaded frame without its SPY column. *)
Definition without_spy : DataFrame := mkFrame days (df_columns four).

(** A solver that always fails. *)
Definition failing_solver (c : MinimizeCall) : outcome OptimizeResult :=
  Raised (Exn "ValueError").

Definition no_first_value (s : Series) : outcome npfloat :=
  Raised (Exn "IndexingError").

Definition absolute (a : npfloat) : npfloat :=
  match a with
  | Fin q => Fin (Qabs q)
  | NonFinite => NonFinite
  end.

(** A second stand-in for [analysis.get_portfolio_stats], rational
    throughout: the mean absolute deviation of the daily returns takes the
    place of their standard deviation, and the ratio is not annualised. *)
Definition rational_summary (port_val : Series) : stats :=
  match port_val with
  | [] => (NonFinite, NonFinite, NonFinite, NonFinite)
  | v0 :: _ =>
      let returns := daily_returns port_val in
      let avg := mean returns in
      let dev := mean (map (fun r => absolute (fsub r avg)) returns) in
      (fsub (fdiv (last port_val v0) v0) (Fin 1), avg, dev, fdiv avg dev)
  end.

Definition world_of (data : outcome DataFrame)
  (evaluate : Series -> stats)
  (solver : MinimizeCall -> outcome OptimizeResult)
  (ix0 : Series -> outcome npfloat) : externals :=
  {| date_range := fun _ _ => days;
     get_data := fun _ _ => data;
     get_portfolio_value := portfolio_value;
     get_portfolio_stats := evaluate;
     minimize := solver;
     series_ix0 := ix0 |}.

Definition rational : externals :=
  world_of (Returned loaded) rational_summary (checked_solver converged)
           first_value.

End Sample.

(** * Properties *)

(** ** Sums and quotients of finite arrays *)

Lemma fdiv_finite (p s : Q) :
  ~ s == 0 -> fdiv (Fin p) (Fin s) = Fin (p / s).
Proof.
  intros Hs. unfold fdiv.
  destruct (Qeq_bool s 0) eqn:Hb; [|reflexivity].
  exfalso. apply Hs. now apply Qeq_bool_eq.
Qed.

Lemma fdiv_by_zero (w : npfloat) (s : Q) :
  s == 0 -> fdiv w (Fin s) = NonFinite.
Proof.
  intros Hs. destruct w as [p|]; [|reflexivity].
  unfold fdiv. apply Qeq_bool_iff in Hs. now rewrite Hs.
Qed.

(** A finite sum has finite summands only. *)
Lemma np_sum_finite (a : ndarray) (s : Q) :
  np_sum a = Fin s -> exists qs, a = map Fin qs /\ s = qsum qs.
Proof.
  revert s. induction a as [|w a IH]; intros s H.
  - exists []. simpl in H. injection H as <-. split; reflexivity.
  - simpl in H. destruct w as [p|]; [|discriminate].
    destruct (np_sum a) as [t|] eqn:Ht; [|discriminate].
    simpl in H. injection H as <-.
    destruct (IH t eq_refl) as (qs & -> & ->).
    exists (p :: qs). split; reflexivity.
Qed.

Lemma np_sum_map_Fin (qs : list Q) : np_sum (map Fin qs) = Fin (qsum qs).
Proof.
  induction qs as [|q qs IH]; [reflexivity|].
  change (np_sum (map Fin (q :: qs)))
    with (fadd (Fin q) (np_sum (map Fin qs))).
  now rewrite IH.
Qed.

Lemma array_div_finite (qs : list Q) (s : Q) :
  ~ s == 0 ->
  array_div (map Fin qs) (Fin s) = map Fin (map (fun q => q / s) qs).
Proof.
  intros Hs. unfold array_div. rewrite !map_map.
  apply map_ext. intros q. now apply fdiv_finite.
Qed.

Lemma qsum_div (qs : list Q) (s : Q) :
  qsum (map (fun q => q / s) qs) == qsum qs / s.
Proof.
  induction qs as [|q qs IH]; simpl.
  - unfold Qdiv. now rewrite Qmult_0_l.
  - rewrite IH. unfold Qdiv. now rewrite Qmult_plus_distr_l.
Qed.

(** Dividing a finite array by its nonzero sum gives an array of sum one. *)
Lemma normalize_sums_to_one (a : ndarray) (s : Q) :
  np_sum a = Fin s -> ~ s == 0 -> feq (np_sum (normalize a)) (Fin 1).
Proof.
  intros Hsum Hs. unfold normalize. rewrite Hsum.
  destruct (np_sum_finite a s Hsum) as (qs & -> & Hq).
  rewrite array_div_finite by assumption.
  rewrite np_sum_map_Fin. simpl.
  rewrite qsum_div, <- Hq. unfold Qdiv. now apply Qmult_inv_r.
Qed.

(** With one weight, the only possible outcome of the division is [1.0]. *)
Lemma normalize_single (w : Q) :
  ~ w == 0 -> exists q, normalize [Fin w] = [Fin q] /\ q == 1.
Proof.
  intros Hw. unfold normalize, array_div, np_sum.
  cbn [map fold_right fadd].
  assert (Hs : ~ w + 0 == 0) by (now rewrite Qplus_0_r).
  rewrite (fdiv_finite w (w + 0) Hs).
  exists (w / (w + 0)). split; [reflexivity|].
  rewrite Qplus_0_r. unfold Qdiv. now apply Qmult_inv_r.
Qed.

(** Nothing guards the division: a zero sum leaves no finite weight. *)
Lemma normalize_zero_sum (a : ndarray) (s : Q) :
  np_sum a = Fin s -> s == 0 -> Forall (fun w => w = NonFinite) (normalize a).
Proof.
  intros Hsum Hs. unfold normalize, array_div. rewrite Hsum.
  apply Forall_forall. intros w Hin.
  apply in_map_iff in Hin. destruct Hin as (v & <- & _).
  now apply fdiv_by_zero.
Qed.

(** C9: normalisation is [allocs / np.sum(allocs)] with no test on the sum;
    when the weights add up to a nonzero value, every quotient is defined:
    each normalised weight is the finite number [w / s], and the non-finite
    result of a division by zero does not occur. *)
Theorem normalize_defined (allocs : ndarray) (s : Q) :
  np_sum allocs = Fin s ->
  ~ s == 0 ->
  exists qs : list Q,
    allocs = map Fin qs /\
    normalize allocs = map (fun q => Fin (q / s)) qs /\
    Forall (fun w => is_finite w = true) (normalize allocs).
Proof.
  intros Hsum Hs.
  destruct (np_sum_finite allocs s Hsum) as (qs & Ha & _).
  exists qs. split; [assumption|].
  assert (Hn : normalize allocs = map (fun q => Fin (q / s)) qs).
  { unfold normalize. rewrite Hsum, Ha.
    rewrite array_div_finite by assumption. now rewrite map_map. }
  split; [assumption|].
  rewrite Hn. apply Forall_forall. intros w Hin.
  apply in_map_iff in Hin. now destruct Hin as (q & <- & _).
Qed.

Lemma normalize_defined_witness :
  exists qs : list Q,
    res_x Sample.stalled = map Fin qs /\
    normalize (res_x Sample.stalled) = map (fun q => Fin (q / (8 # 4))) qs /\
    Forall (fun w => is_finite w = true) (normalize (res_x Sample.stalled)).
Proof.
  apply (normalize_defined (res_x Sample.stalled) (8 # 4)).
  - reflexivity.
  - intros H. vm_compute in H. discriminate.
Defined.

(** ** The bounds handed to the solver *)

Lemma init_guess_length (prices : DataFrame) :
  List.length (init_guess prices) = shape1 prices.
Proof.
  unfold init_guess, array_div, array_mul, np_ones.
  now rewrite !length_map, repeat_length.
Qed.

Lemma alloc_bounds_length (prices : DataFrame) :
  List.length (alloc_bounds prices) = 4%nat.
Proof. reflexivity. Qed.

(** C1: the bounds list is [[(0, N)] * 4]: every entry is the pair (0, N),
    but there are four of them whatever N is, so there is one bound per
    weight only for a portfolio of four instruments. *)
Theorem alloc_bounds_four_entries (prices : DataFrame) :
  alloc_bounds prices = repeat (0%Z, Z.of_nat (shape1 prices)) 4 /\
  List.length (alloc_bounds prices) = 4%nat /\
  List.length (init_guess prices) = shape1 prices /\
  (List.length (alloc_bounds prices) = shape1 prices <->
   shape1 prices = 4%nat).
Proof.
  split; [reflexivity|]. split; [apply alloc_bounds_length|]. split.
  - apply init_guess_length.
  - rewrite alloc_bounds_length. split; intros H; now rewrite H.
Qed.

(** Three instruments: three initial weights, four bounds. *)
Example alloc_bounds_three_instruments :
  shape1 Sample.three = 3%nat /\
  init_guess Sample.three = [Fin (1 # 3); Fin (1 # 3); Fin (1 # 3)] /\
  alloc_bounds Sample.three = [(0, 3); (0, 3); (0, 3); (0, 3)]%Z.
Proof. repeat split. Qed.

(** ** The objective *)

(** C4: the function given to the minimiser is [sharpe_maximizer], applied
    to the candidate weights and the price frame, and its value is the
    negated Sharpe ratio entry of the statistics of the portfolio value
    of these weights. *)
Theorem sharpe_maximizer_negates_sharpe (E : externals)
  (allocs : ndarray) (prices : DataFrame) :
  sharpe_maximizer E allocs prices
  = fopp (sharpe_ratio_of
            (get_portfolio_stats E (get_portfolio_value E prices allocs))) /\
  call_fun (minimize_call E prices) allocs (call_args (minimize_call E prices))
  = sharpe_maximizer E allocs prices.
Proof.
  split; [|reflexivity].
  unfold sharpe_maximizer, sharpe_ratio_of.
  now destruct (get_portfolio_stats E (get_portfolio_value E prices allocs))
    as [[[cum avg] std] sharpe].
Qed.

(** ** Running the search *)

Lemma find_optimal_allocations_returned (E : externals) (prices : DataFrame)
  (r : OptimizeResult) :
  minimize E (minimize_call E prices) = Returned r ->
  find_optimal_allocations E prices
  = ([CallMinimize (minimize_call E prices); Stdout [VResult r]],
     Returned (res_x r)).
Proof.
  intros H. unfold find_optimal_allocations, call_minimize, bind.
  now rewrite H.
Qed.

Lemma find_optimal_allocations_raised (E : externals) (prices : DataFrame)
  (e : exn) :
  minimize E (minimize_call E prices) = Raised e ->
  find_optimal_allocations E prices
  = ([CallMinimize (minimize_call E prices)], Raised e).
Proof.
  intros H. unfold find_optimal_allocations, call_minimize, bind.
  now rewrite H.
Qed.

Lemma checked_rejects (r : OptimizeResult) :
  rejects_incompatible_bounds (Sample.world (Sample.checked_solver r)).
Proof.
  intros c Hc. cbn. unfold Sample.checked_solver.
  destruct (Nat.eqb_spec (List.length (call_bounds c))
                         (List.length (call_x0 c))); [contradiction|reflexivity].
Qed.

(** The claim of C2 fails on a run whose solver stops at its iteration
    limit: the iterate comes back as an ordinary result. *)
Lemma not_converged_is_not_a_failure :
  ~ fails_when_not_converged Sample.checked Sample.four.
Proof.
  intros H.
  specialize (H Sample.stalled eq_refl eq_refl).
  rewrite (find_optimal_allocations_returned
             Sample.checked Sample.four Sample.stalled eq_refl) in H.
  discriminate H.
Qed.

(** C2, amended: [find_optimal_allocations] never looks at the solver's
    success flag; whenever the solver hands back a result, converged or
    not, that result is printed and its iterate [x] is returned. *)
Theorem find_optimal_allocations_returns_iterate (E : externals)
  (prices : DataFrame) (r : OptimizeResult) :
  minimize E (minimize_call E prices) = Returned r ->
  result (find_optimal_allocations E prices) = Returned (res_x r) /\
  In (Stdout [VResult r]) (trace (find_optimal_allocations E prices)).
Proof.
  intros H. rewrite (find_optimal_allocations_returned E prices r H).
  split; [reflexivity|]. right. now left.
Qed.

Lemma find_optimal_allocations_returns_iterate_witness :
  res_success Sample.stalled = false /\
  result (find_optimal_allocations Sample.checked Sample.four)
  = Returned (res_x Sample.stalled) /\
  In (Stdout [VResult Sample.stalled])
     (trace (find_optimal_allocations Sample.checked Sample.four)).
Proof.
  split; [reflexivity|].
  apply (find_optimal_allocations_returns_iterate
           Sample.checked Sample.four Sample.stalled).
  reflexivity.
Defined.

(** C6: with one instrument the call carries one initial weight and four
    bounds; a solver that insists on one bound per weight refuses it, so
    the run ends in that solver's exception and no allocation comes back. *)
Theorem single_instrument_is_refused (E : externals) (prices : DataFrame) :
  shape1 prices = 1%nat ->
  rejects_incompatible_bounds E ->
  List.length (call_x0 (minimize_call E prices)) = 1%nat /\
  List.length (call_bounds (minimize_call E prices)) = 4%nat /\
  find_optimal_allocations E prices
  = ([CallMinimize (minimize_call E prices)], Raised (Exn "IndexError")).
Proof.
  intros HN Hrej.
  pose proof (alloc_bounds_length prices) as Hb.
  pose proof (init_guess_length prices) as Hx.
  assert (Hx0 : List.length (call_x0 (minimize_call E prices)) = 1%nat)
    by (cbn; now rewrite Hx).
  split; [assumption|]. split; [exact Hb|].
  apply find_optimal_allocations_raised, Hrej.
  rewrite Hx0.
  change (call_bounds (minimize_call E prices)) with (alloc_bounds prices).
  rewrite Hb. discriminate.
Qed.

Lemma single_instrument_is_refused_witness :
  List.length (call_x0 (minimize_call Sample.checked Sample.one)) = 1%nat /\
  List.length (call_bounds (minimize_call Sample.checked Sample.one)) = 4%nat /\
  find_optimal_allocations Sample.checked Sample.one
  = ([CallMinimize (minimize_call Sample.checked Sample.one)],
     Raised (Exn "IndexError")).
Proof.
  apply (single_instrument_is_refused Sample.checked Sample.one).
  - reflexivity.
  - apply checked_rejects.
Defined.

(** The claim of C7 fails on a frame without columns: the run ends in the
    solver's own exception, not in EmptyPortfolio. *)
Lemma empty_portfolio_is_not_signalled :
  ~ fails_when_empty Sample.checked Sample.none.
Proof.
  intros H. specialize (H eq_refl).
  rewrite (find_optimal_allocations_raised
             Sample.checked Sample.none (Exn "IndexError") eq_refl) in H.
  discriminate H.
Qed.

(** C7, amended: without instruments there is no check of its own; the
    solver is called, once, with an empty initial guess, and the run ends
    as the solver does: its iterate is returned, or its exception is
    passed on. *)
Theorem empty_portfolio_reaches_solver (E : externals) (prices : DataFrame) :
  shape1 prices = 0%nat ->
  call_x0 (minimize_call E prices) = [] /\
  minimize_calls (trace (find_optimal_allocations E prices))
  = [minimize_call E prices] /\
  result (find_optimal_allocations E prices)
  = match minimize E (minimize_call E prices) with
    | Returned r => Returned (res_x r)
    | Raised e => Raised e
    end.
Proof.
  intros HN. split; [|split].
  - cbn. unfold init_guess. now rewrite HN.
  - destruct (minimize E (minimize_call E prices)) as [r|e] eqn:Hm.
    + now rewrite (find_optimal_allocations_returned E prices r Hm).
    + now rewrite (find_optimal_allocations_raised E prices e Hm).
  - destruct (minimize E (minimize_call E prices)) as [r|e] eqn:Hm.
    + now rewrite (find_optimal_allocations_returned E prices r Hm).
    + now rewrite (find_optimal_allocations_raised E prices e Hm).
Qed.

Lemma empty_portfolio_reaches_solver_witness :
  call_x0 (minimize_call Sample.checked Sample.none) = [] /\
  minimize_calls (trace (find_optimal_allocations Sample.checked Sample.none))
  = [minimize_call Sample.checked Sample.none] /\
  result (find_optimal_allocations Sample.checked Sample.none)
  = Raised (Exn "IndexError").
Proof.
  apply (empty_portfolio_reaches_solver Sample.checked Sample.none).
  reflexivity.
Defined.

(** ** A complete run *)

(** When the data are there and the solver hands back [r], the run is the
    solver call, the printed result, the report computed from the
    normalised iterate, and the plot. *)
Lemma optimize_portfolio_run (E : externals) (start_date end_date : string)
  (symbols : list string) (df prices : DataFrame) (spy : Series)
  (r : OptimizeResult) :
  get_data E symbols (date_range E start_date end_date) = Returned df ->
  getitem_list df symbols = Returned prices ->
  getitem df "SPY" = Returned spy ->
  minimize E (minimize_call E prices) = Returned r ->
  let allocs := normalize (res_x r) in
  let port_val := get_portfolio_value E prices allocs in
  trace (optimize_portfolio E start_date end_date symbols)
  = CallMinimize (minimize_call E prices)
    :: Stdout [VResult r]
    :: report_lines start_date end_date symbols allocs
         (get_portfolio_stats E port_val)
    ++ plot_events E df spy port_val.
Proof.
  intros Hdata Hsel Hspy Hmin allocs port_val.
  unfold optimize_portfolio, lift.
  rewrite Hdata. cbn [bind]. rewrite Hsel. cbn [bind]. rewrite Hspy.
  cbn [bind].
  rewrite (find_optimal_allocations_returned E prices r Hmin).
  cbn [bind]. fold allocs. fold port_val.
  unfold plot_events, report_lines,
    sharpe_ratio_of, std_daily_ret_of, avg_daily_ret_of, cum_ret_of.
  destruct (get_portfolio_stats E port_val) as [[[cum avg] std] sharpe].
  destruct (series_ix0 E spy) as [first_SPY|e]; reflexivity.
Qed.

(** C3: the allocation a run reports is the solver's iterate divided by its
    sum, and when that sum is a nonzero number the reported weights add up
    to exactly one. *)
Theorem optimal_allocation_sums_to_one (E : externals)
  (start_date end_date : string) (symbols : list string)
  (df prices : DataFrame) (spy : Series) (r : OptimizeResult) (s : Q) :
  get_data E symbols (date_range E start_date end_date) = Returned df ->
  getitem_list df symbols = Returned prices ->
  getitem df "SPY" = Returned spy ->
  minimize E (minimize_call E prices) = Returned r ->
  np_sum (res_x r) = Fin s ->
  ~ s == 0 ->
  exists a : ndarray,
    printed "Optimal allocations:"
            (trace (optimize_portfolio E start_date end_date symbols))
    = Some [VArray a] /\
    a = array_div (res_x r) (Fin s) /\
    feq (np_sum a) (Fin 1).
Proof.
  intros Hdata Hsel Hspy Hmin Hsum Hs.
  exists (normalize (res_x r)).
  rewrite (optimize_portfolio_run E start_date end_date symbols
             df prices spy r Hdata Hsel Hspy Hmin).
  split; [reflexivity|]. split.
  - unfold normalize. now rewrite Hsum.
  - now apply (normalize_sums_to_one (res_x r) s).
Qed.

Lemma optimal_allocation_sums_to_one_witness :
  exists a : ndarray,
    printed "Optimal allocations:"
            (trace (optimize_portfolio Sample.checked "2010-01-01"
                      "2010-12-31" Sample.symbols))
    = Some [VArray a] /\
    a = array_div (res_x Sample.stalled) (Fin (8 # 4)) /\
    feq (np_sum a) (Fin 1).
Proof.
  apply (optimal_allocation_sums_to_one Sample.checked "2010-01-01"
           "2010-12-31" Sample.symbols Sample.loaded Sample.four
           Sample.spy Sample.stalled (8 # 4)).
  - reflexivity.
  - reflexivity.
  - reflexivity.
  - reflexivity.
  - reflexivity.
  - intros H. vm_compute in H. discriminate.
Defined.

(** C5: the four statistics of the report are those of the portfolio value
    computed with the normalised weights, the solver's iterate divided by
    its sum. *)
Theorem report_uses_normalized_allocation (E : externals)
  (start_date end_date : string) (symbols : list string)
  (df prices : DataFrame) (spy : Series) (r : OptimizeResult) :
  get_data E symbols (date_range E start_date end_date) = Returned df ->
  getitem_list df symbols = Returned prices ->
  getitem df "SPY" = Returned spy ->
  minimize E (minimize_call E prices) = Returned r ->
  let allocs := array_div (res_x r) (np_sum (res_x r)) in
  let st := get_portfolio_stats E (get_portfolio_value E prices allocs) in
  let t := trace (optimize_portfolio E start_date end_date symbols) in
  printed "Cumulative Return:" t = Some [VFloat (cum_ret_of st)] /\
  printed "Average Daily Return:" t = Some [VFloat (avg_daily_ret_of st)] /\
  printed "Volatility (stdev of daily returns):" t
  = Some [VFloat (std_daily_ret_of st)] /\
  printed "Sharpe Ratio:" t = Some [VFloat (sharpe_ratio_of st)].
Proof.
  intros Hdata Hsel Hspy Hmin allocs st t. subst t.
  rewrite (optimize_portfolio_run E start_date end_date symbols
             df prices spy r Hdata Hsel Hspy Hmin).
  repeat split.
Qed.

Lemma report_uses_normalized_allocation_witness :
  let allocs :=
    array_div (res_x Sample.stalled) (np_sum (res_x Sample.stalled)) in
  let st := Sample.summary (Sample.portfolio_value Sample.four allocs) in
  let t := trace (optimize_portfolio Sample.checked "2010-01-01"
                    "2010-12-31" Sample.symbols) in
  printed "Cumulative Return:" t = Some [VFloat (cum_ret_of st)] /\
  printed "Average Daily Return:" t = Some [VFloat (avg_daily_ret_of st)] /\
  printed "Volatility (stdev of daily returns):" t
  = Some [VFloat (std_daily_ret_of st)] /\
  printed "Sharpe Ratio:" t = Some [VFloat (sharpe_ratio_of st)].
Proof.
  apply (report_uses_normalized_allocation Sample.checked "2010-01-01"
           "2010-12-31" Sample.symbols Sample.loaded Sample.four
           Sample.spy Sample.stalled); reflexivity.
Defined.

(** ** Console output *)

Lemma console_report (E : externals) (start_date end_date : string)
  (symbols : list string) (allocs : ndarray) (st : stats)
  (df : DataFrame) (spy port_val : Series) :
  console (report_lines start_date end_date symbols allocs st
           ++ plot_events E df spy port_val)
  = report_lines start_date end_date symbols allocs st
    ++ plot_events E df spy port_val.
Proof.
  unfold console. rewrite filter_app. f_equal.
  unfold plot_events. now destruct (series_ix0 E spy).
Qed.

(** The claim of C8 fails on an ordinary run: the search prints. *)
Lemma search_is_not_silent : ~ silent Sample.checked Sample.four.
Proof.
  unfold silent.
  rewrite (find_optimal_allocations_returned
             Sample.checked Sample.four Sample.stalled eq_refl).
  discriminate.
Qed.

(** C8, amended: the objective is a pure function, but the search writes
    one line to the console, the solver's result, before it returns the
    iterate; a complete run writes that line, then the eight lines of the
    report, then draws the plot. *)
Theorem console_output_of_a_run (E : externals)
  (start_date end_date : string) (symbols : list string)
  (df prices : DataFrame) (spy : Series) (r : OptimizeResult) :
  get_data E symbols (date_range E start_date end_date) = Returned df ->
  getitem_list df symbols = Returned prices ->
  getitem df "SPY" = Returned spy ->
  minimize E (minimize_call E prices) = Returned r ->
  let allocs := normalize (res_x r) in
  let port_val := get_portfolio_value E prices allocs in
  console (trace (find_optimal_allocations E prices)) = [Stdout [VResult r]] /\
  console (trace (optimize_portfolio E start_date end_date symbols))
  = Stdout [VResult r]
    :: report_lines start_date end_date symbols allocs
         (get_portfolio_stats E port_val)
    ++ plot_events E df spy port_val.
Proof.
  intros Hdata Hsel Hspy Hmin allocs port_val. split.
  - now rewrite (find_optimal_allocations_returned E prices r Hmin).
  - rewrite (optimize_portfolio_run E start_date end_date symbols
               df prices spy r Hdata Hsel Hspy Hmin).
    fold allocs. fold port_val.
    change (console (?e1 :: ?e2 :: ?t)) with (e2 :: console t).
    now rewrite console_report.
Qed.

Lemma console_output_of_a_run_witness :
  let allocs := normalize (res_x Sample.stalled) in
  let port_val := Sample.portfolio_value Sample.four allocs in
  console (trace (find_optimal_allocations Sample.checked Sample.four))
  = [Stdout [VResult Sample.stalled]] /\
  console (trace (optimize_portfolio Sample.checked "2010-01-01"
                    "2010-12-31" Sample.symbols))
  = Stdout [VResult Sample.stalled]
    :: report_lines "2010-01-01" "2010-12-31" Sample.symbols allocs
         (Sample.summary port_val)
    ++ plot_events Sample.checked Sample.loaded Sample.spy port_val.
Proof.
  apply (console_output_of_a_run Sample.checked "2010-01-01"
           "2010-12-31" Sample.symbols Sample.loaded Sample.four
           Sample.spy Sample.stalled); reflexivity.
Defined.

(** ** The columns given to the search *)

Lemma filter_absent (cols : list (string * Series)) (k : string) :
  ~ In k (map fst cols) -> filter (has_label k) cols = [].
Proof.
  induction cols as [|c cols IH]; intros Hk; [reflexivity|].
  simpl. unfold has_label at 1.
  destruct (String.eqb_spec (fst c) k) as [Heq|Hne].
  - exfalso. apply Hk. now left.
  - apply IH. intros Hin. apply Hk. now right.
Qed.

(** Among distinct labels, a label that is present selects one column. *)
Lemma filter_unique (cols : list (string * Series)) (k : string) :
  NoDup (map fst cols) -> In k (map fst cols) ->
  exists v, filter (has_label k) cols = [(k, v)].
Proof.
  induction cols as [|[k' v'] cols IH]; intros Hnd Hin; [contradiction|].
  simpl in Hnd. inversion Hnd as [|? ? Hnotin Hnd']; subst.
  simpl. unfold has_label at 1. simpl.
  destruct (String.eqb_spec k' k) as [Heq|Hne].
  - subst k'. exists v'. now rewrite (filter_absent cols k Hnotin).
  - destruct Hin as [Heq|Hin]; [contradiction|]. now apply IH.
Qed.

Lemma select_columns_labels (cols : list (string * Series))
  (keys : list string) :
  NoDup (map fst cols) -> incl keys (map fst cols) ->
  exists sel, select_columns cols keys = Returned sel /\ map fst sel = keys.
Proof.
  intros Hnd. induction keys as [|k ks IH]; intros Hincl.
  - exists []. split; reflexivity.
  - destruct (filter_unique cols k Hnd (Hincl k (or_introl eq_refl)))
      as (v & Hv).
    destruct IH as (sel & Hsel & Hlab).
    { intros y Hy. apply Hincl. now right. }
    exists ((k, v) :: sel). simpl. rewrite Hv, Hsel.
    split; [reflexivity|]. simpl. now rewrite Hlab.
Qed.

Lemma getitem_present (df : DataFrame) (key : string) :
  In key (labels df) -> exists s, getitem df key = Returned s.
Proof.
  unfold labels, getitem. intros Hin.
  destruct (find (has_label key) (df_columns df)) as [c|] eqn:Hf.
  - now exists (snd c).
  - exfalso. apply in_map_iff in Hin. destruct Hin as (c & Hc & Hin).
    apply (find_none _ _ Hf) in Hin. unfold has_label in Hin.
    rewrite Hc, String.eqb_refl in Hin. discriminate.
Qed.

Lemma minimize_calls_report (E : externals) (start_date end_date : string)
  (symbols : list string) (allocs : ndarray) (st : stats)
  (df : DataFrame) (spy port_val : Series) :
  minimize_calls (report_lines start_date end_date symbols allocs st
                  ++ plot_events E df spy port_val) = [].
Proof.
  unfold plot_events. now destruct (series_ix0 E spy).
Qed.

(** C10: when the loaded frame has distinct labels, among them SPY and
    every requested symbol, a run calls the solver once, and the frame it
    passes carries exactly the requested symbols in the requested order;
    SPY is one of its columns only if it was requested. *)
Theorem solver_sees_requested_symbols (E : externals)
  (start_date end_date : string) (symbols : list string) (df : DataFrame) :
  get_data E symbols (date_range E start_date end_date) = Returned df ->
  NoDup (labels df) ->
  incl symbols (labels df) ->
  In "SPY" (labels df) ->
  exists c : MinimizeCall,
    minimize_calls (trace (optimize_portfolio E start_date end_date symbols))
    = [c] /\
    labels (call_args c) = symbols /\
    List.length (call_x0 c) = List.length symbols /\
    (In "SPY" (labels (call_args c)) <-> In "SPY" symbols).
Proof.
  intros Hdata Hnd Hincl Hspy.
  destruct (select_columns_labels (df_columns df) symbols Hnd Hincl)
    as (sel & Hsel & Hlab).
  destruct (getitem_present df "SPY" Hspy) as (spy & Hget).
  set (prices := mkFrame (df_index df) sel).
  assert (Hprices : getitem_list df symbols = Returned prices)
    by (unfold getitem_list; now rewrite Hsel).
  exists (minimize_call E prices). split; [|split; [|split]].
  - destruct (minimize E (minimize_call E prices)) as [r|e] eqn:Hmin.
    + rewrite (optimize_portfolio_run E start_date end_date symbols
                 df prices spy r Hdata Hprices Hget Hmin).
      cbn [minimize_calls]. now rewrite minimize_calls_report.
    + unfold optimize_portfolio, lift.
      rewrite Hdata. cbn [bind]. rewrite Hprices. cbn [bind].
      rewrite Hget. cbn [bind].
      now rewrite (find_optimal_allocations_raised E prices e Hmin).
  - exact Hlab.
  - change (call_x0 (minimize_call E prices)) with (init_guess prices).
    rewrite init_guess_length. unfold shape1, prices. cbn.
    now rewrite <- Hlab, length_map.
  - change (labels (call_args (minimize_call E prices))) with (map fst sel).
    now rewrite Hlab.
Qed.

Lemma sample_labels_distinct : NoDup (labels Sample.loaded).
Proof.
  cbn. repeat constructor; cbn; intuition discriminate.
Qed.

Lemma solver_sees_requested_symbols_witness :
  exists c : MinimizeCall,
    minimize_calls (trace (optimize_portfolio Sample.checked "2010-01-01"
                             "2010-12-31" Sample.symbols))
    = [c] /\
    labels (call_args c) = Sample.symbols /\
    List.length (call_x0 c) = List.length Sample.symbols /\
    (In "SPY" (labels (call_args c)) <-> In "SPY" Sample.symbols).
Proof.
  apply (solver_sees_requested_symbols Sample.checked "2010-01-01"
           "2010-12-31" Sample.symbols Sample.loaded).
  - reflexivity.
  - apply sample_labels_distinct.
  - intros k Hk. cbn in Hk |- *. intuition.
  - cbn. now left.
Defined.

(** In the sample run SPY is loaded but not handed to the search. *)
Example sample_run_drops_spy :
  labels Sample.loaded = "SPY" :: Sample.symbols /\
  getitem_list Sample.loaded Sample.symbols = Returned Sample.four /\
  ~ In "SPY" (labels Sample.four).
Proof.
  repeat split. cbn. intuition discriminate.
Qed.

(** * Further properties *)

(** ** The initial guess *)


Lemma count_nonzero (n : nat) :
  (0 < n)%nat -> ~ inject_Z (Z.of_nat n) == 0.
Proof.
  intros Hn Heq. unfold Qeq in Heq. cbn in Heq. lia.
Qed.

(** With at least one column, every initial weight is the number 1/N. *)
Lemma init_guess_entries (prices : DataFrame) :
  (0 < shape1 prices)%nat ->
  init_guess prices
  = map Fin (repeat (1 * 1 / inject_Z (Z.of_nat (shape1 prices)))
                    (shape1 prices)).
Proof.
  intros HN. unfold init_guess, array_div, array_mul, np_ones, of_int.
  rewrite !map_repeat. cbn [fmul].
  now rewrite (fdiv_finite (1 * 1) _ (count_nonzero _ HN)).
Qed.



(** X2: for a frame with at least one column, every initial weight lies
    between the lower and the upper end of every bound pair handed to the
    solver, that is between 0 and N. *)
Theorem init_guess_within_bounds (prices : DataFrame) (w : npfloat)
  (b : Z * Z) :
  (0 < shape1 prices)%nat ->
  In w (init_guess prices) ->
  In b (alloc_bounds prices) ->
  within_bounds w b.
Proof.
  intros HN Hw Hb.
  assert (Hbv : b = (0%Z, Z.of_nat (shape1 prices))).
  { unfold alloc_bounds, list_times in Hb. cbn in Hb.
    destruct Hb as [H|[H|[H|[H|[]]]]]; now symmetry. }
  rewrite (init_guess_entries prices HN) in Hw.
  apply in_map_iff in Hw. destruct Hw as (q & <- & Hq).
  apply repeat_spec in Hq. subst q b. cbn [within_bounds fst snd].
  set (n := Z.of_nat (shape1 prices)).
  assert (Hpos : 0 < inject_Z n).
  { change 0 with (inject_Z 0). rewrite <- Zlt_Qlt. subst n. lia. }
  split.
  - apply Qle_shift_div_l; [exact Hpos|].
    rewrite Qmult_0_l. discriminate.
  - apply Qle_shift_div_r; [exact Hpos|].
    rewrite <- inject_Z_mult. change (1 * 1) with (inject_Z 1).
    rewrite <- Zle_Qle. subst n. nia.
Qed.

Lemma init_guess_within_bounds_witness :
  within_bounds (Fin (1 # 3)) (0%Z, 3%Z).
Proof.
  apply (init_guess_within_bounds Sample.three (Fin (1 # 3)) (0%Z, 3%Z)).
  - cbn. lia.
  - now left.
  - now left.
Defined.

(** ** Normalisation *)

Lemma feq_array_refl_map (f g : Q -> Q) (qs : list Q) :
  (forall q, f q == g q) ->
  array_feq (map Fin (map f qs)) (map Fin (map g qs)).
Proof.
  intros Hfg. induction qs as [|q qs IH]; constructor.
  - exact (Hfg q).
  - exact IH.
Qed.

(** Dividing by a sum that is one changes no weight. *)
Lemma unit_sum_unchanged (a : ndarray) (s : Q) :
  np_sum a = Fin s -> s == 1 -> array_feq (normalize a) a.
Proof.
  intros Hsum Hs.
  assert (Hnz : ~ s == 0) by (rewrite Hs; discriminate).
  unfold normalize. rewrite Hsum.
  destruct (np_sum_finite a s Hsum) as (qs & -> & _).
  rewrite (array_div_finite qs s Hnz).
  rewrite <- (map_id qs) at 2.
  apply feq_array_refl_map. intros q. rewrite Hs. field.
Qed.








(** ** The objective and the Sharpe ratio *)

Lemma sharpe_maximizer_value (E : externals) (allocs : ndarray)
  (prices : DataFrame) :
  sharpe_maximizer E allocs prices
  = fopp (sharpe_ratio_of
            (get_portfolio_stats E (get_portfolio_value E prices allocs))).
Proof.
  unfold sharpe_maximizer, sharpe_ratio_of.
  now destruct (get_portfolio_stats E (get_portfolio_value E prices allocs))
    as [[[cum avg] std] sharpe].
Qed.

(** X6: among allocations whose Sharpe ratio is a finite number, the
    objective of one is at most the objective of another exactly when its
    Sharpe ratio is at least the other's: minimising the objective is
    maximising the Sharpe ratio, as the docstring says. *)
Theorem lower_objective_is_higher_sharpe (E : externals)
  (prices : DataFrame) (a b : ndarray) :
  let sharpe_of allocs :=
    sharpe_ratio_of
      (get_portfolio_stats E (get_portfolio_value E prices allocs)) in
  is_finite (sharpe_of a) = true ->
  is_finite (sharpe_of b) = true ->
  (fle (sharpe_maximizer E a prices) (sharpe_maximizer E b prices)
   <-> fle (sharpe_of b) (sharpe_of a)).
Proof.
  intros sharpe_of Ha Hb. rewrite !sharpe_maximizer_value.
  fold (sharpe_of a). fold (sharpe_of b).
  destruct (sharpe_of a) as [p|]; [|discriminate].
  destruct (sharpe_of b) as [q|]; [|discriminate].
  cbn [fopp fle]. split; intros H.
  - apply Qopp_le_compat in H. now rewrite !Qopp_involutive in H.
  - now apply Qopp_le_compat.
Qed.

Lemma lower_objective_is_higher_sharpe_witness :
  let a := [Fin 0; Fin 1; Fin 0; Fin 0] in
  let b := [Fin 1; Fin 0; Fin 0; Fin 0] in
  let sharpe_of allocs :=
    sharpe_ratio_of
      (Sample.rational_summary (Sample.portfolio_value Sample.four allocs)) in
  fle (sharpe_maximizer Sample.rational a Sample.four)
      (sharpe_maximizer Sample.rational b Sample.four)
  <-> fle (sharpe_of b) (sharpe_of a).
Proof.
  apply (lower_objective_is_higher_sharpe Sample.rational Sample.four
           [Fin 0; Fin 1; Fin 0; Fin 0] [Fin 1; Fin 0; Fin 0; Fin 0]).
  - vm_compute. reflexivity.
  - vm_compute. reflexivity.
Defined.

(** ** One attempt *)

(** X7: the search calls the solver exactly once, whatever the solver does;
    it writes the solver's result to the console when there is one and
    nothing when the solver raises, and the call ends as the solver's. *)
Theorem search_is_a_single_attempt (E : externals) (prices : DataFrame) :
  minimize_calls (trace (find_optimal_allocations E prices))
  = [minimize_call E prices] /\
  console (trace (find_optimal_allocations E prices))
  = match minimize E (minimize_call E prices) with
    | Returned r => [Stdout [VResult r]]
    | Raised _ => []
    end /\
  result (find_optimal_allocations E prices)
  = match minimize E (minimize_call E prices) with
    | Returned r => Returned (res_x r)
    | Raised e => Raised e
    end.
Proof.
  destruct (minimize E (minimize_call E prices)) as [r|e] eqn:Hmin.
  - rewrite (find_optimal_allocations_returned E prices r Hmin).
    repeat split.
  - rewrite (find_optimal_allocations_raised E prices e Hmin).
    repeat split.
Qed.

(** ** Runs that stop early *)

Lemma select_columns_missing (cols : list (string * Series))
  (keys : list string) (k : string) :
  In k keys -> ~ In k (map fst cols) ->
  select_columns cols keys = Raised (Exn "KeyError").
Proof.
  intros Hin Habs. induction keys as [|k' ks IH]; [contradiction|].
  cbn [select_columns].
  destruct Hin as [->|Hin].
  - now rewrite (filter_absent cols k Habs).
  - rewrite (IH Hin). now destruct (filter (has_label k') cols).
Qed.

Lemma getitem_absent (df : DataFrame) (key : string) :
  ~ In key (labels df) -> getitem df key = Raised (Exn "KeyError").
Proof.
  unfold labels, getitem. intros Habs.
  destruct (find (has_label key) (df_columns df)) as [c|] eqn:Hf;
    [|reflexivity].
  exfalso. apply Habs. apply find_some in Hf. destruct Hf as (Hin & Hlab).
  unfold has_label in Hlab. apply String.eqb_eq in Hlab.
  apply in_map_iff. now exists c.
Qed.

(** X8: a requested symbol that is not a column of the loaded frame ends
    the run with KeyError before anything else happens: the solver is not
    called and nothing is printed or plotted. *)
Theorem missing_symbol_stops_run (E : externals)
  (start_date end_date : string) (symbols : list string) (df : DataFrame)
  (k : string) :
  get_data E symbols (date_range E start_date end_date) = Returned df ->
  In k symbols ->
  ~ In k (labels df) ->
  optimize_portfolio E start_date end_date symbols
  = ([], Raised (Exn "KeyError")).
Proof.
  intros Hdata Hin Habs.
  unfold optimize_portfolio, lift. rewrite Hdata. cbn [bind].
  unfold getitem_list.
  now rewrite (select_columns_missing (df_columns df) symbols k Hin Habs).
Qed.

Lemma missing_symbol_stops_run_witness :
  optimize_portfolio Sample.checked "2010-01-01" "2010-12-31"
                     ["GOOGL"; "IBM"]
  = ([], Raised (Exn "KeyError")).
Proof.
  apply (missing_symbol_stops_run Sample.checked "2010-01-01" "2010-12-31"
           ["GOOGL"; "IBM"] Sample.loaded "IBM").
  - reflexivity.
  - right. now left.
  - cbn. intuition discriminate.
Defined.

(** X9: the run also needs the SPY column: when the loaded frame has every
    requested symbol but no SPY, it ends with KeyError before the search
    starts, with no solver call and no output. *)
Theorem missing_spy_stops_run (E : externals)
  (start_date end_date : string) (symbols : list string)
  (df prices : DataFrame) :
  get_data E symbols (date_range E start_date end_date) = Returned df ->
  getitem_list df symbols = Returned prices ->
  ~ In "SPY" (labels df) ->
  optimize_portfolio E start_date end_date symbols
  = ([], Raised (Exn "KeyError")).
Proof.
  intros Hdata Hsel Habs.
  unfold optimize_portfolio, lift. rewrite Hdata. cbn [bind].
  rewrite Hsel. cbn [bind].
  now rewrite (getitem_absent df "SPY" Habs).
Qed.

Lemma missing_spy_stops_run_witness :
  optimize_portfolio
    (Sample.world_of (Returned Sample.without_spy) Sample.summary
       (Sample.checked_solver Sample.converged) Sample.first_value)
    "2010-01-01" "2010-12-31" Sample.symbols
  = ([], Raised (Exn "KeyError")).
Proof.
  apply (missing_spy_stops_run
           (Sample.world_of (Returned Sample.without_spy) Sample.summary
              (Sample.checked_solver Sample.converged) Sample.first_value)
           "2010-01-01" "2010-12-31" Sample.symbols
           Sample.without_spy Sample.four).
  - reflexivity.
  - reflexivity.
  - cbn. intuition discriminate.
Defined.

Lemma optimize_portfolio_solver_raised (E : externals)
  (start_date end_date : string) (symbols : list string)
  (df prices : DataFrame) (spy : Series) (e : exn) :
  get_data E symbols (date_range E start_date end_date) = Returned df ->
  getitem_list df symbols = Returned prices ->
  getitem df "SPY" = Returned spy ->
  minimize E (minimize_call E prices) = Raised e ->
  optimize_portfolio E start_date end_date symbols
  = ([CallMinimize (minimize_call E prices)], Raised e).
Proof.
  intros Hdata Hsel Hspy Hmin.
  unfold optimize_portfolio, lift. rewrite Hdata. cbn [bind].
  rewrite Hsel. cbn [bind]. rewrite Hspy. cbn [bind].
  now rewrite (find_optimal_allocations_raised E prices e Hmin).
Qed.

(** X10: an exception of the solver ends the whole run with that
    exception; no report line is printed and no plot is drawn. *)
Theorem solver_exception_ends_run (E : externals)
  (start_date end_date : string) (symbols : list string)
  (df prices : DataFrame) (spy : Series) (e : exn) :
  get_data E symbols (date_range E start_date end_date) = Returned df ->
  getitem_list df symbols = Returned prices ->
  getitem df "SPY" = Returned spy ->
  minimize E (minimize_call E prices) = Raised e ->
  result (optimize_portfolio E start_date end_date symbols) = Raised e /\
  console (trace (optimize_portfolio E start_date end_date symbols)) = [].
Proof.
  intros Hdata Hsel Hspy Hmin.
  rewrite (optimize_portfolio_solver_raised E start_date end_date symbols
             df prices spy e Hdata Hsel Hspy Hmin).
  split; reflexivity.
Qed.

Lemma solver_exception_ends_run_witness :
  let E := Sample.world Sample.failing_solver in
  result (optimize_portfolio E "2010-01-01" "2010-12-31" Sample.symbols)
  = Raised (Exn "ValueError") /\
  console (trace (optimize_portfolio E "2010-01-01" "2010-12-31"
                    Sample.symbols)) = [].
Proof.
  apply (solver_exception_ends_run (Sample.world Sample.failing_solver)
           "2010-01-01" "2010-12-31" Sample.symbols Sample.loaded
           Sample.four Sample.spy (Exn "ValueError")); reflexivity.
Defined.

(** X11: with a solver that insists on one bound per weight, a run for any
    number of instruments other than four ends with that solver's
    IndexError right after the call, before any line is printed. *)
Theorem only_four_instruments_pass (E : externals)
  (start_date end_date : string) (symbols : list string)
  (df prices : DataFrame) (spy : Series) :
  get_data E symbols (date_range E start_date end_date) = Returned df ->
  getitem_list df symbols = Returned prices ->
  getitem df "SPY" = Returned spy ->
  shape1 prices <> 4%nat ->
  rejects_incompatible_bounds E ->
  optimize_portfolio E start_date end_date symbols
  = ([CallMinimize (minimize_call E prices)], Raised (Exn "IndexError")).
Proof.
  intros Hdata Hsel Hspy HN Hrej.
  apply (optimize_portfolio_solver_raised E start_date end_date symbols
           df prices spy _ Hdata Hsel Hspy).
  apply Hrej.
  change (call_bounds (minimize_call E prices)) with (alloc_bounds prices).
  change (call_x0 (minimize_call E prices)) with (init_guess prices).
  rewrite alloc_bounds_length, init_guess_length. congruence.
Qed.

Lemma only_four_instruments_pass_witness :
  exists prices : DataFrame,
    labels prices = ["GOOGL"; "AAPL"] /\
    optimize_portfolio Sample.checked "2010-01-01" "2010-12-31"
                       ["GOOGL"; "AAPL"]
    = ([CallMinimize (minimize_call Sample.checked prices)],
       Raised (Exn "IndexError")).
Proof.
  exists (mkFrame Sample.days
            [("GOOGL", Sample.googl); ("AAPL", Sample.aapl)]).
  split; [reflexivity|].
  apply (only_four_instruments_pass Sample.checked "2010-01-01"
           "2010-12-31" ["GOOGL"; "AAPL"] Sample.loaded _ Sample.spy).
  - reflexivity.
  - reflexivity.
  - reflexivity.
  - cbn. discriminate.
  - apply checked_rejects.
Defined.

(** ** Runs that reach the report *)

Lemma optimize_portfolio_result (E : externals)
  (start_date end_date : string) (symbols : list string)
  (df prices : DataFrame) (spy : Series) (r : OptimizeResult) :
  get_data E symbols (date_range E start_date end_date) = Returned df ->
  getitem_list df symbols = Returned prices ->
  getitem df "SPY" = Returned spy ->
  minimize E (minimize_call E prices) = Returned r ->
  result (optimize_portfolio E start_date end_date symbols)
  = match series_ix0 E spy with
    | Returned _ => Returned tt
    | Raised e => Raised e
    end.
Proof.
  intros Hdata Hsel Hspy Hmin.
  unfold optimize_portfolio, lift.
  rewrite Hdata. cbn [bind]. rewrite Hsel. cbn [bind]. rewrite Hspy.
  cbn [bind].
  rewrite (find_optimal_allocations_returned E prices r Hmin).
  cbn [bind].
  destruct (get_portfolio_stats E
              (get_portfolio_value E prices (normalize (res_x r))))
    as [[[cum avg] std] sharpe].
  destruct (series_ix0 E spy) as [first_SPY|e]; reflexivity.
Qed.

(** X12: when reading SPY's first value fails, the run ends with that
    exception only after the solver's result and all eight report lines
    have been printed; no plot is drawn. *)
Theorem plot_failure_follows_report (E : externals)
  (start_date end_date : string) (symbols : list string)
  (df prices : DataFrame) (spy : Series) (r : OptimizeResult) (e : exn) :
  get_data E symbols (date_range E start_date end_date) = Returned df ->
  getitem_list df symbols = Returned prices ->
  getitem df "SPY" = Returned spy ->
  minimize E (minimize_call E prices) = Returned r ->
  series_ix0 E spy = Raised e ->
  let allocs := normalize (res_x r) in
  result (optimize_portfolio E start_date end_date symbols) = Raised e /\
  console (trace (optimize_portfolio E start_date end_date symbols))
  = Stdout [VResult r]
    :: report_lines start_date end_date symbols allocs
         (get_portfolio_stats E (get_portfolio_value E prices allocs)).
Proof.
  intros Hdata Hsel Hspy Hmin Hix allocs. split.
  - rewrite (optimize_portfolio_result E start_date end_date symbols
               df prices spy r Hdata Hsel Hspy Hmin).
    now rewrite Hix.
  - rewrite (optimize_portfolio_run E start_date end_date symbols
               df prices spy r Hdata Hsel Hspy Hmin).
    unfold plot_events. rewrite Hix, app_nil_r. reflexivity.
Qed.

Lemma plot_failure_follows_report_witness :
  let E := Sample.world_of (Returned Sample.loaded) Sample.summary
             (Sample.checked_solver Sample.converged)
             Sample.no_first_value in
  let allocs := normalize (res_x Sample.converged) in
  result (optimize_portfolio E "2010-01-01" "2010-12-31" Sample.symbols)
  = Raised (Exn "IndexingError") /\
  console (trace (optimize_portfolio E "2010-01-01" "2010-12-31"
                    Sample.symbols))
  = Stdout [VResult Sample.converged]
    :: report_lines "2010-01-01" "2010-12-31" Sample.symbols allocs
         (Sample.summary (Sample.portfolio_value Sample.four allocs)).
Proof.
  apply (plot_failure_follows_report
           (Sample.world_of (Returned Sample.loaded) Sample.summary
              (Sample.checked_solver Sample.converged)
              Sample.no_first_value)
           "2010-01-01" "2010-12-31" Sample.symbols Sample.loaded
           Sample.four Sample.spy Sample.converged (Exn "IndexingError"));
    reflexivity.
Defined.



(** X14: an iterate whose weights add up to zero does not stop the run at
    the division: the allocation line is printed, with as many entries as
    the iterate has and none of them finite. *)
Theorem zero_sum_iterate_is_reported (E : externals)
  (start_date end_date : string) (symbols : list string)
  (df prices : DataFrame) (spy : Series) (r : OptimizeResult) (s : Q) :
  get_data E symbols (date_range E start_date end_date) = Returned df ->
  getitem_list df symbols = Returned prices ->
  getitem df "SPY" = Returned spy ->
  minimize E (minimize_call E prices) = Returned r ->
  np_sum (res_x r) = Fin s ->
  s == 0 ->
  exists a : ndarray,
    printed "Optimal allocations:"
            (trace (optimize_portfolio E start_date end_date symbols))
    = Some [VArray a] /\
    List.length a = List.length (res_x r) /\
    Forall (fun w => w = NonFinite) a.
Proof.
  intros Hdata Hsel Hspy Hmin Hsum Hs.
  exists (normalize (res_x r)).
  rewrite (optimize_portfolio_run E start_date end_date symbols
             df prices spy r Hdata Hsel Hspy Hmin).
  split; [reflexivity|]. split.
  - unfold normalize, array_div. now rewrite length_map.
  - now apply (normalize_zero_sum (res_x r) s).
Qed.

Lemma zero_sum_iterate_is_reported_witness :
  exists a : ndarray,
    printed "Optimal allocations:"
            (trace (optimize_portfolio
                      (Sample.world (Sample.checked_solver Sample.cancelled))
                      "2010-01-01" "2010-12-31" Sample.symbols))
    = Some [VArray a] /\
    List.length a = List.length (res_x Sample.cancelled) /\
    Forall (fun w => w = NonFinite) a.
Proof.
  apply (zero_sum_iterate_is_reported
           (Sample.world (Sample.checked_solver Sample.cancelled))
           "2010-01-01" "2010-12-31" Sample.symbols Sample.loaded
           Sample.four Sample.spy Sample.cancelled (0 + (0 + (0 + (0 + 0)))));
    reflexivity.
Defined.

(** X15: when the solver's iterate already adds up to one, the allocation
    the run prints is that iterate, entry by entry. *)
Theorem feasible_iterate_is_reported_unchanged (E : externals)
  (start_date end_date : string) (symbols : list string)
  (df prices : DataFrame) (spy : Series) (r : OptimizeResult) (s : Q) :
  get_data E symbols (date_range E start_date end_date) = Returned df ->
  getitem_list df symbols = Returned prices ->
  getitem df "SPY" = Returned spy ->
  minimize E (minimize_call E prices) = Returned r ->
  np_sum (res_x r) = Fin s ->
  s == 1 ->
  exists a : ndarray,
    printed "Optimal allocations:"
            (trace (optimize_portfolio E start_date end_date symbols))
    = Some [VArray a] /\
    array_feq a (res_x r).
Proof.
  intros Hdata Hsel Hspy Hmin Hsum Hs.
  exists (normalize (res_x r)).
  rewrite (optimize_portfolio_run E start_date end_date symbols
             df prices spy r Hdata Hsel Hspy Hmin).
  split; [reflexivity|].
  now apply (unit_sum_unchanged (res_x r) s).
Qed.

Lemma feasible_iterate_is_reported_unchanged_witness :
  exists a : ndarray,
    printed "Optimal allocations:"
            (trace (optimize_portfolio
                      (Sample.world (Sample.checked_solver Sample.converged))
                      "2010-01-01" "2010-12-31" Sample.symbols))
    = Some [VArray a] /\
    array_feq a (res_x Sample.converged).
Proof.
  apply (feasible_iterate_is_reported_unchanged
           (Sample.world (Sample.checked_solver Sample.converged))
           "2010-01-01" "2010-12-31" Sample.symbols Sample.loaded
           Sample.four Sample.spy Sample.converged
           ((1 # 2) + ((1 # 4) + ((1 # 4) + (0 + 0))))); reflexivity.
Defined.

(** X16: the Sharpe ratio a run prints is the negated value of the
    solver's objective at the allocation the run prints. *)
Theorem reported_sharpe_is_negated_objective (E : externals)
  (start_date end_date : string) (symbols : list string)
  (df prices : DataFrame) (spy : Series) (r : OptimizeResult) :
  get_data E symbols (date_range E start_date end_date) = Returned df ->
  getitem_list df symbols = Returned prices ->
  getitem df "SPY" = Returned spy ->
  minimize E (minimize_call E prices) = Returned r ->
  exists (a : ndarray) (v : npfloat),
    printed "Optimal allocations:"
            (trace (optimize_portfolio E start_date end_date symbols))
    = Some [VArray a] /\
    printed "Sharpe Ratio:"
            (trace (optimize_portfolio E start_date end_date symbols))
    = Some [VFloat v] /\
    call_fun (minimize_call E prices) a prices = fopp v.
Proof.
  intros Hdata Hsel Hspy Hmin.
  exists (normalize (res_x r)).
  exists (sharpe_ratio_of
            (get_portfolio_stats E
               (get_portfolio_value E prices (normalize (res_x r))))).
  rewrite (optimize_portfolio_run E start_date end_date symbols
             df prices spy r Hdata Hsel Hspy Hmin).
  split; [reflexivity|]. split; [reflexivity|].
  apply sharpe_maximizer_value.
Qed.

Lemma reported_sharpe_is_negated_objective_witness :
  exists (a : ndarray) (v : npfloat),
    printed "Optimal allocations:"
            (trace (optimize_portfolio Sample.rational "2010-01-01"
                      "2010-12-31" Sample.symbols))
    = Some [VArray a] /\
    printed "Sharpe Ratio:"
            (trace (optimize_portfolio Sample.rational "2010-01-01"
                      "2010-12-31" Sample.symbols))
    = Some [VFloat v] /\
    call_fun (minimize_call Sample.rational Sample.four) a Sample.four
    = fopp v.
Proof.
  apply (reported_sharpe_is_negated_objective Sample.rational "2010-01-01"
           "2010-12-31" Sample.symbols Sample.loaded Sample.four
           Sample.spy Sample.converged); reflexivity.
Defined.

(** ** The driver *)

Lemma optimize_portfolio_call (E : externals)
  (start_date end_date : string) (symbols : list string) (df : DataFrame) :
  get_data E symbols (date_range E start_date end_date) = Returned df ->
  NoDup (labels df) ->
  incl symbols (labels df) ->
  In "SPY" (labels df) ->
  exists prices : DataFrame,
    labels prices = symbols /\
    minimize_calls (trace (optimize_portfolio E start_date end_date symbols))
    = [minimize_call E prices].
Proof.
  intros Hdata Hnd Hincl Hspy.
  destruct (select_columns_labels (df_columns df) symbols Hnd Hincl)
    as (sel & Hsel & Hlab).
  destruct (getitem_present df "SPY" Hspy) as (spy & Hget).
  exists (mkFrame (df_index df) sel). split; [exact Hlab|].
  assert (Hprices : getitem_list df symbols
                    = Returned (mkFrame (df_index df) sel))
    by (unfold getitem_list; now rewrite Hsel).
  destruct (minimize E (minimize_call E (mkFrame (df_index df) sel)))
    as [r|e] eqn:Hmin.
  - rewrite (optimize_portfolio_run E start_date end_date symbols
               df _ spy r Hdata Hprices Hget Hmin).
    cbn [minimize_calls]. now rewrite minimize_calls_report.
  - now rewrite (optimize_portfolio_solver_raised E start_date end_date
                   symbols df _ spy e Hdata Hprices Hget Hmin).
Qed.

(** X17: the driver asks for four symbols, the one portfolio size for which
    the call to the solver is consistent: when the loader delivers them,
    the solver is called once with the four requested columns, four
    initial weights of one quarter and four bounds (0, 4). *)
Theorem test_run_call_is_consistent (E : externals) (df : DataFrame) :
  get_data E ["GOOGL"; "AAPL"; "GLD"; "XOM"]
           (date_range E "2010-01-01" "2010-12-31") = Returned df ->
  NoDup (labels df) ->
  incl ["GOOGL"; "AAPL"; "GLD"; "XOM"] (labels df) ->
  In "SPY" (labels df) ->
  exists c : MinimizeCall,
    minimize_calls (trace (test_run E)) = [c] /\
    labels (call_args c) = ["GOOGL"; "AAPL"; "GLD"; "XOM"] /\
    call_bounds c = [(0, 4); (0, 4); (0, 4); (0, 4)]%Z /\
    List.length (call_x0 c) = List.length (call_bounds c) /\
    Forall (fun w => feq w (Fin (1 # 4))) (call_x0 c).
Proof.
  intros Hdata Hnd Hincl Hspy.
  destruct (optimize_portfolio_call E "2010-01-01" "2010-12-31"
              ["GOOGL"; "AAPL"; "GLD"; "XOM"] df Hdata Hnd Hincl Hspy)
    as (prices & Hlab & Hcalls).
  assert (HN : shape1 prices = 4%nat).
  { unfold shape1. rewrite <- (length_map fst).
    change (map fst (df_columns prices)) with (labels prices).
    now rewrite Hlab. }
  exists (minimize_call E prices).
  split; [exact Hcalls|]. split; [exact Hlab|].
  change (call_bounds (minimize_call E prices)) with (alloc_bounds prices).
  change (call_x0 (minimize_call E prices)) with (init_guess prices).
  split; [|split].
  - unfold alloc_bounds. now rewrite HN.
  - now rewrite init_guess_length, alloc_bounds_length.
  - rewrite (init_guess_entries prices) by (rewrite HN; lia).
    rewrite HN. cbn [repeat map]. repeat constructor.
Qed.

Lemma test_run_call_is_consistent_witness :
  exists c : MinimizeCall,
    minimize_calls (trace (test_run Sample.checked)) = [c] /\
    labels (call_args c) = ["GOOGL"; "AAPL"; "GLD"; "XOM"] /\
    call_bounds c = [(0, 4); (0, 4); (0, 4); (0, 4)]%Z /\
    List.length (call_x0 c) = List.length (call_bounds c) /\
    Forall (fun w => feq w (Fin (1 # 4))) (call_x0 c).
Proof.
  apply (test_run_call_is_consistent Sample.checked Sample.loaded).
  - reflexivity.
  - apply sample_labels_distinct.
  - intros k Hk. cbn in Hk |- *. intuition.
  - cbn. now left.
Defined.
